(** * Data contracts of the grfcourses front end

    The repository declares the shapes exchanged with a delivery and
    order-management service: product families, products, orders
    ("pedidos"), delivery routes ("rotas"), the list and error envelopes,
    the creation payloads and the authentication responses.  It holds no
    executable code, so the development below embeds every declared
    object type as a record, every union of string literals as an
    enumeration, and proves the contracts as statements about all the
    values of those types.

    Conventions of the embedding:
    - [number] is the IEEE 754 binary64 type of the kernel, which is what
      a TypeScript [number] is;
    - [T | null] is [nullable T] and a property [p?: T] is [optional T];
      the two are kept apart, since [p?: T | null] has three states;
    - one module per declared type, so that the fields keep their names
      ([Rota.status], [Pedido.latitude], ...); anonymous object types get
      a module named after the property that holds them.

    The filter parameters of filters.ts and the session augmentation of
    next-auth.d.ts take no part in the contracts proved here and are left
    out. *)

From Corelib Require Import PrimFloat SpecFloat FloatOps FloatAxioms.
From Stdlib Require Import String List Bool.
Import ListNotations.

Local Open Scope string_scope.
Local Open Scope float_scope.

(** ** Primitive types *)

Definition number : Set := float.

(** [T | null]. *)
Inductive nullable (A : Type) : Type :=
| null : nullable A
| non_null : A -> nullable A.
Arguments null {A}.
Arguments non_null {A} _.

(** A property declared with [?]: it may be left out of the object. *)
Inductive optional (A : Type) : Type :=
| absent : optional A
| present : A -> optional A.
Arguments absent {A}.
Arguments present {A} _.

(** The literal type [false]: the booleans that are [false]. *)
Definition literal_false : Set := { b : bool | b = false }.

Definition FALSE : literal_false := exist _ false eq_refl.

(** What an observer finds in a slot of an object. *)
Inductive slot_state : Set := Missing | Null | Filled.

Class Slot (A : Type) : Type := state_of : A -> slot_state.

#[export] Instance number_slot : Slot number := fun _ => Filled.
#[export] Instance string_slot : Slot string := fun _ => Filled.
#[export] Instance bool_slot : Slot bool := fun _ => Filled.
#[export] Instance nullable_slot (A : Type) : Slot (nullable A) :=
  fun x => match x with null => Null | non_null _ => Filled end.
#[export] Instance optional_slot (A : Type) `{Slot A} : Slot (optional A) :=
  fun x => match x with absent => Missing | present a => state_of a end.

(** ** courses.d.ts *)

Module Familia.
Record t : Set := mk {
  id : number;
  nome : string;
  descricao : nullable string;
  ativo : bool;
  created_at : string;
  total_produtos : number
}.
End Familia.
Definition Familia : Set := Familia.t.

Module Produto.
Module familia.
Record t : Set := mk {
  id : number;
  nome : string;
  descricao : nullable string
}.
End familia.
Record t : Set := mk {
  id : number;
  nome : string;
  peso : number;
  volume : nullable number;
  familia : familia.t;
  ativo : bool;
  created_at : string
}.
End Produto.
Definition Produto : Set := Produto.t.

Module ProdutoSimple.
Record t : Set := mk {
  id : number;
  nome : string;
  peso : number;
  volume : nullable number;
  familia_nome : string
}.
End ProdutoSimple.
Definition ProdutoSimple : Set := ProdutoSimple.t.

Module ProdutoPedido.
Record t : Set := mk {
  id : number;
  produto : ProdutoSimple;
  quantidade : number;
  peso_total : number
}.
End ProdutoPedido.
Definition ProdutoPedido : Set := ProdutoPedido.t.

Module Pedido.
Module usuario.
Record t : Set := mk {
  id : number;
  name : string;
  email : string
}.
End usuario.
Record t : Set := mk {
  id : number;
  usuario : nullable usuario.t;
  nf : number;
  observacao : nullable string;
  dtpedido : string;
  latitude : number;
  longitude : number;
  created_at : string;
  itens : list ProdutoPedido;
  peso_total : number;
  volume_total : number;
  total_itens : number
}.
End Pedido.
Definition Pedido : Set := Pedido.t.

Module PedidoSimple.
Record t : Set := mk {
  id : number;
  nf : number;
  dtpedido : string;
  latitude : number;
  longitude : number;
  usuario_nome : nullable string;
  observacao : nullable string
}.
End PedidoSimple.
Definition PedidoSimple : Set := PedidoSimple.t.

(** [type RotaStatus = "PLANEJADA" | "EM_EXECUCAO" | "CONCLUIDA"]. *)
Inductive RotaStatus : Set := PLANEJADA | EM_EXECUCAO | CONCLUIDA.

Module RotaTrajeto.
Record t : Set := mk {
  id : number;
  latitude : number;
  longitude : number;
  datahora : string
}.
End RotaTrajeto.
Definition RotaTrajeto : Set := RotaTrajeto.t.

Module RotaPedido.
Record t : Set := mk {
  id : number;
  pedido : PedidoSimple;
  ordem_entrega : number;
  entregue : bool;
  data_entrega : nullable string
}.
End RotaPedido.
Definition RotaPedido : Set := RotaPedido.t.

Module Rota.
Record t : Set := mk {
  id : number;
  data_rota : string;
  capacidade_max : number;
  status : RotaStatus;
  created_at : string;
  updated_at : string;
  pedidos : list RotaPedido;
  trajetos : list RotaTrajeto;
  peso_total_pedidos : number;
  total_pedidos : number;
  pedidos_entregues : number;
  percentual_entrega : number
}.
End Rota.
Definition Rota : Set := Rota.t.

Module RotaSimple.
Record t : Set := mk {
  id : number;
  data_rota : string;
  capacidade_max : number;
  status : RotaStatus;
  total_pedidos : number;
  peso_total : number
}.
End RotaSimple.
Definition RotaSimple : Set := RotaSimple.t.

(** *** Responses of the API *)

Definition APIGetFamiliaResponse : Set := Familia.

Module APIGetFamiliasResponse.
Record t : Set := mk {
  results : list Familia;
  count : number;
  next : nullable string;
  previous : nullable string
}.
End APIGetFamiliasResponse.
Definition APIGetFamiliasResponse : Set := APIGetFamiliasResponse.t.

Definition APIGetProdutoResponse : Set := Produto.

Module APIGetProdutosResponse.
Record t : Set := mk {
  results : list Produto;
  count : number;
  next : nullable string;
  previous : nullable string
}.
End APIGetProdutosResponse.
Definition APIGetProdutosResponse : Set := APIGetProdutosResponse.t.

Definition APIGetPedidoResponse : Set := Pedido.

Module APIGetPedidosResponse.
Record t : Set := mk {
  results : list Pedido;
  count : number;
  next : nullable string;
  previous : nullable string
}.
End APIGetPedidosResponse.
Definition APIGetPedidosResponse : Set := APIGetPedidosResponse.t.

Definition APIGetRotaResponse : Set := Rota.

Module APIGetRotasResponse.
Record t : Set := mk {
  results : list Rota;
  count : number;
  next : nullable string;
  previous : nullable string
}.
End APIGetRotasResponse.
Definition APIGetRotasResponse : Set := APIGetRotasResponse.t.

(** ** api.d.ts *)

Module API.
Record t (TData : Type) : Type := mk {
  success : bool;
  detail : optional (nullable string);
  code : optional string;
  data : nullable TData
}.
Arguments mk {TData} _ _ _ _.
Arguments success {TData} _.
Arguments detail {TData} _.
Arguments code {TData} _.
Arguments data {TData} _.
End API.
Definition API (TData : Type) : Type := API.t TData.

Module APIError.
Record t : Set := mk {
  success : literal_false;
  detail : optional string;
  code : optional string
}.
End APIError.
Definition APIError : Set := APIError.t.

(** ** forms.ts *)

Module PedidoCreatePayload.
Module itens.
Record t : Set := mk {
  produto_id : number;
  quantidade : number
}.
End itens.
Record t : Set := mk {
  usuario_id : optional (nullable number);
  nf : number;
  observacao : optional (nullable string);
  dtpedido : string;
  latitude : number;
  longitude : number;
  itens : list itens.t
}.
End PedidoCreatePayload.
Definition PedidoCreatePayload : Set := PedidoCreatePayload.t.

Module RotaCreatePayload.
Record t : Set := mk {
  data_rota : string;
  capacidade_max : number;
  status : optional RotaStatus;
  pedidos_ids : optional (list number)
}.
End RotaCreatePayload.
Definition RotaCreatePayload : Set := RotaCreatePayload.t.

Definition APIPostPedidoResponse : Set := Pedido.
Definition APIPostRotaResponse : Set := Rota.

(** ** Authentication responses *)

Module User.
Record t : Set := mk {
  id : number;
  name : string;
  email : string
}.
End User.
Definition User : Set := User.t.

Module APISignInResponse.
Record t : Set := mk {
  user : User;
  access_token : string
}.
End APISignInResponse.
Definition APISignInResponse : Set := APISignInResponse.t.

Module APISignUpResponse.
Record t : Set := mk {
  user : User;
  access_token : string
}.
End APISignUpResponse.
Definition APISignUpResponse : Set := APISignUpResponse.t.

(** ** Vocabulary of the contracts *)

(** The values of [RotaStatus], in the order of the declaration. *)
Definition RotaStatus_values : list RotaStatus :=
  [PLANEJADA; EM_EXECUCAO; CONCLUIDA].

(** The string literal each status stands for. *)
Definition RotaStatus_literal (s : RotaStatus) : string :=
  match s with
  | PLANEJADA => "PLANEJADA"
  | EM_EXECUCAO => "EM_EXECUCAO"
  | CONCLUIDA => "CONCLUIDA"
  end.

(** [carries_exactly fields]: a value of [R] is the tuple [fields] reads
    from it, no more and no less.  Two values with the same fields are the
    same value, and every choice of fields is the reading of some value. *)
Definition carries_exactly {R F : Type} (fields : R -> F) : Prop :=
  (forall a b : R, fields a = fields b -> a = b) /\
  (forall f : F, exists r : R, fields r = f).

(** The list envelope [{ results: T[], count, next, previous }]. *)
Module Envelope.
Record t (T : Type) : Type := mk {
  results : list T;
  count : number;
  next : nullable string;
  previous : nullable string
}.
Arguments mk {T} _ _ _ _.
Arguments results {T} _.
Arguments count {T} _.
Arguments next {T} _.
Arguments previous {T} _.
End Envelope.

Definition familias_envelope (r : APIGetFamiliasResponse) : Envelope.t Familia :=
  Envelope.mk (APIGetFamiliasResponse.results r) (APIGetFamiliasResponse.count r)
    (APIGetFamiliasResponse.next r) (APIGetFamiliasResponse.previous r).

Definition produtos_envelope (r : APIGetProdutosResponse) : Envelope.t Produto :=
  Envelope.mk (APIGetProdutosResponse.results r) (APIGetProdutosResponse.count r)
    (APIGetProdutosResponse.next r) (APIGetProdutosResponse.previous r).

Definition pedidos_envelope (r : APIGetPedidosResponse) : Envelope.t Pedido :=
  Envelope.mk (APIGetPedidosResponse.results r) (APIGetPedidosResponse.count r)
    (APIGetPedidosResponse.next r) (APIGetPedidosResponse.previous r).

Definition rotas_envelope (r : APIGetRotasResponse) : Envelope.t Rota :=
  Envelope.mk (APIGetRotasResponse.results r) (APIGetRotasResponse.count r)
    (APIGetRotasResponse.next r) (APIGetRotasResponse.previous r).

(** Reading one authentication response as the other. *)
Definition sign_in_as_sign_up (r : APISignInResponse) : APISignUpResponse :=
  APISignUpResponse.mk (APISignInResponse.user r) (APISignInResponse.access_token r).

Definition sign_up_as_sign_in (r : APISignUpResponse) : APISignInResponse :=
  APISignInResponse.mk (APISignUpResponse.user r) (APISignUpResponse.access_token r).

(** ** Derived aggregates, as the specification words them

    No declaration ties an aggregate field to the collection it summarises.
    The definitions of this part follow the specification's sentences, to
    be compared with what the declared types admit. *)

(** A count, as the [number] a client receives. *)
Fixpoint number_of_nat (n : nat) : number :=
  match n with
  | O => 0
  | S k => number_of_nat k + 1
  end.

(** Sum of a list of numbers, from the left, starting at [0]. *)
Definition sum_numbers (l : list number) : number :=
  fold_left PrimFloat.add l 0.

(** Number of assigned orders whose [entregue] flag is set. *)
Definition delivered (ps : list RotaPedido) : nat :=
  length (filter RotaPedido.entregue ps).

(** "[percentual_entrega] should equal [pedidos_entregues / total_pedidos * 100]",
    the two counts being taken from [pedidos]. *)
Definition percentual_entrega_derived (r : Rota) : Prop :=
  Rota.total_pedidos r = number_of_nat (length (Rota.pedidos r)) /\
  Rota.pedidos_entregues r = number_of_nat (delivered (Rota.pedidos r)) /\
  Rota.percentual_entrega r =
    Rota.pedidos_entregues r / Rota.total_pedidos r * 100.

(** The route [r] with its three delivery aggregates recomputed from
    [pedidos]; every other field is kept. *)
Definition with_derived_entrega (r : Rota) : Rota :=
  let total := number_of_nat (length (Rota.pedidos r)) in
  let entregues := number_of_nat (delivered (Rota.pedidos r)) in
  Rota.mk (Rota.id r) (Rota.data_rota r) (Rota.capacidade_max r)
    (Rota.status r) (Rota.created_at r) (Rota.updated_at r)
    (Rota.pedidos r) (Rota.trajetos r) (Rota.peso_total_pedidos r)
    total entregues (entregues / total * 100).

(** "[peso_total] fields should equal the sum of constituent weights":
    a line weighs its product's weight times the quantity. *)
Definition line_peso_derived (i : ProdutoPedido) : Prop :=
  ProdutoPedido.peso_total i =
    ProdutoSimple.peso (ProdutoPedido.produto i) * ProdutoPedido.quantidade i.

(** An order weighs the sum of its lines. *)
Definition pedido_peso_derived (p : Pedido) : Prop :=
  Pedido.peso_total p =
    sum_numbers (map ProdutoPedido.peso_total (Pedido.itens p)).

(** A route weighs the sum of its assigned orders.  An assigned order is a
    [RotaPedido] around a [PedidoSimple], neither of which has a weight
    field, so the weight of an assigned order is a parameter here. *)
Definition rota_peso_derived (weight : RotaPedido -> number) (r : Rota) : Prop :=
  Rota.peso_total_pedidos r = sum_numbers (map weight (Rota.pedidos r)).

(** The three parts of the weight contract, over all values. *)
Definition peso_total_derived_everywhere : Prop :=
  (forall i : ProdutoPedido, line_peso_derived i) /\
  (forall p : Pedido, pedido_peso_derived p) /\
  (exists weight : RotaPedido -> number, forall r : Rota, rota_peso_derived weight r).

(** The line [i] with its weight recomputed. *)
Definition with_derived_line_peso (i : ProdutoPedido) : ProdutoPedido :=
  ProdutoPedido.mk (ProdutoPedido.id i) (ProdutoPedido.produto i)
    (ProdutoPedido.quantidade i)
    (ProdutoSimple.peso (ProdutoPedido.produto i) * ProdutoPedido.quantidade i).

(** The order [p] with its weight recomputed from its lines. *)
Definition with_derived_pedido_peso (p : Pedido) : Pedido :=
  Pedido.mk (Pedido.id p) (Pedido.usuario p) (Pedido.nf p) (Pedido.observacao p)
    (Pedido.dtpedido p) (Pedido.latitude p) (Pedido.longitude p)
    (Pedido.created_at p) (Pedido.itens p)
    (sum_numbers (map ProdutoPedido.peso_total (Pedido.itens p)))
    (Pedido.volume_total p) (Pedido.total_itens p).

(** The route [r] with the weight of its orders recomputed, for a given
    weight of each order. *)
Definition with_derived_rota_peso (weight : RotaPedido -> number) (r : Rota) : Rota :=
  Rota.mk (Rota.id r) (Rota.data_rota r) (Rota.capacidade_max r)
    (Rota.status r) (Rota.created_at r) (Rota.updated_at r)
    (Rota.pedidos r) (Rota.trajetos r)
    (sum_numbers (map weight (Rota.pedidos r)))
    (Rota.total_pedidos r) (Rota.pedidos_entregues r) (Rota.percentual_entrega r).

(** ** Sample values *)

Definition caixa : ProdutoSimple :=
  ProdutoSimple.mk 3 "Caixa" 2 null "Embalagens".

(** Three boxes of weight 2, declared to weigh 7. *)
Definition linha_sete : ProdutoPedido := ProdutoPedido.mk 1 caixa 3 7.

(** An order whose only line weighs 6, declared to weigh 10. *)
Definition pedido_dez : Pedido :=
  Pedido.mk 1 null 1001 null "2024-03-01" (-23.5) (-46.625)
    "2024-03-01T08:00:00Z" [ProdutoPedido.mk 1 caixa 3 6] 10 0 3.

Definition pedido_ana : PedidoSimple :=
  PedidoSimple.mk 1 1001 "2024-03-01" (-23.5) (-46.625) (non_null "Ana") null.

Definition entrega_ana : RotaPedido :=
  RotaPedido.mk 1 pedido_ana 1 true (non_null "2024-03-02T10:00:00Z").

(** A route with the one delivered order [entrega_ana], carrying the
    given weight and completion percentage. *)
Definition rota_ana (peso percentual : number) : Rota :=
  Rota.mk 1 "2024-03-02" 500 CONCLUIDA
    "2024-03-01T09:00:00Z" "2024-03-02T10:00:00Z"
    [entrega_ana] [] peso 1 1 percentual.

(** An assigned order that is still to be delivered. *)
Definition entrega_pendente : RotaPedido :=
  RotaPedido.mk 2 pedido_ana 2 false null.

(** A route of two orders, the first delivered and the second not, whose
    aggregates were left at zero. *)
Definition rota_duas_entregas : Rota :=
  Rota.mk 2 "2024-03-03" 500 EM_EXECUCAO
    "2024-03-02T09:00:00Z" "2024-03-03T10:00:00Z"
    [entrega_ana; entrega_pendente] [] 12.5 0 0 0.

Definition produto_caixa (ativo : bool) (created_at : string) (familia_id : number) : Produto :=
  Produto.mk 3 "Caixa" 2 null
    (Produto.familia.mk familia_id "Embalagens" null) ativo created_at.

(** * Proofs *)

(** ** Tools *)

(** Two numbers that an IEEE comparison with a third one tells apart are
    different.  (The comparison of a number with itself would not do:
    [NaN] is not IEEE-equal to itself.) *)
Lemma number_differ (c a b : number) :
  PrimFloat.eqb a c = true -> PrimFloat.eqb b c = false -> a <> b.
Proof.
  intros Ha Hb Hab. rewrite Hab in Ha. rewrite Ha in Hb. discriminate Hb.
Qed.

(** Nothing compares equal to [NaN] under the IEEE comparison. *)
Lemma eqb_nan (x : number) : PrimFloat.eqb x PrimFloat.nan = false.
Proof.
  rewrite FloatAxioms.eqb_spec. change (Prim2SF PrimFloat.nan) with S754_nan.
  destruct (Prim2SF x); reflexivity.
Qed.

Ltac split_tuple :=
  repeat match goal with
         | x : (_ * _)%type |- _ => destruct x
         end.

(** Closes [carries_exactly fields] when [fields] lists every projection
    of a record. *)
Ltac exactly_the_fields :=
  split;
  [ intros [] [] H; cbn in H; congruence
  | intros f; try destruct f; split_tuple;
    unshelve eexists; [ econstructor; shelve | reflexivity ] ].

(** ** Route status *)

Lemma RotaStatus_cases (s : RotaStatus) :
  s = PLANEJADA \/ s = EM_EXECUCAO \/ s = CONCLUIDA.
Proof. destruct s; auto. Qed.

Lemma RotaStatus_all (s : RotaStatus) : In s RotaStatus_values.
Proof. destruct s; simpl; auto. Qed.

Lemma RotaStatus_values_NoDup : NoDup RotaStatus_values.
Proof.
  unfold RotaStatus_values.
  repeat constructor; simpl; intuition discriminate.
Qed.

Lemma RotaStatus_literal_inj (s s' : RotaStatus) :
  RotaStatus_literal s = RotaStatus_literal s' -> s = s'.
Proof. destruct s, s'; simpl; intros H; try reflexivity; discriminate H. Qed.

(** C1: the status of every [Rota] and of every [RotaSimple], and every
    [RotaStatus] value, is one of PLANEJADA, EM_EXECUCAO and CONCLUIDA;
    there are exactly these three values, told apart by their literals,
    and no fourth one. *)
Theorem rota_status_is_enumerated :
  (forall s : RotaStatus, s = PLANEJADA \/ s = EM_EXECUCAO \/ s = CONCLUIDA) /\
  (forall s : RotaStatus, In s RotaStatus_values) /\
  NoDup RotaStatus_values /\
  length RotaStatus_values = 3%nat /\
  (forall r : Rota, In (Rota.status r) RotaStatus_values) /\
  (forall r : RotaSimple, In (RotaSimple.status r) RotaStatus_values) /\
  (forall s : RotaStatus,
     In (RotaStatus_literal s) ["PLANEJADA"; "EM_EXECUCAO"; "CONCLUIDA"]) /\
  (forall s s' : RotaStatus, RotaStatus_literal s = RotaStatus_literal s' -> s = s').
Proof.
  split; [exact RotaStatus_cases |].
  repeat split.
  - exact RotaStatus_all.
  - exact RotaStatus_values_NoDup.
  - intros r. apply RotaStatus_all.
  - intros r. apply RotaStatus_all.
  - intros s. destruct s; simpl; auto.
  - exact RotaStatus_literal_inj.
Qed.

(** C10: the status of a route-creation payload is optional; whenever it
    is present it is one of the three [RotaStatus] values, the very values
    a stored route can have, and each status of a stored route can be sent
    in a payload. *)
Theorem rota_create_status_is_enumerated :
  (forall p : RotaCreatePayload,
     RotaCreatePayload.status p = absent \/
     exists s : RotaStatus,
       RotaCreatePayload.status p = present s /\
       In s RotaStatus_values /\
       exists r : Rota, Rota.status r = s) /\
  (forall r : Rota, exists p : RotaCreatePayload,
     RotaCreatePayload.status p = present (Rota.status r)).
Proof.
  split.
  - intros p. destruct (RotaCreatePayload.status p) as [|s] eqn:E.
    + left. reflexivity.
    + right. exists s. split; [reflexivity | split; [apply RotaStatus_all |]].
      exists (Rota.mk 0 "" 0 s "" "" [] [] 0 0 0 0). reflexivity.
  - intros r.
    exists (RotaCreatePayload.mk (Rota.data_rota r) (Rota.capacidade_max r)
              (present (Rota.status r)) absent).
    reflexivity.
Qed.

(** ** Envelopes *)

(** C4: each of the four list responses carries exactly [results] (a list
    of its entity), [count] (a number), [next] and [previous] (nullable
    strings), whatever the entity is. *)
Theorem list_envelopes_carry_four_fields :
  carries_exactly familias_envelope /\
  carries_exactly produtos_envelope /\
  carries_exactly pedidos_envelope /\
  carries_exactly rotas_envelope.
Proof.
  unfold familias_envelope, produtos_envelope, pedidos_envelope, rotas_envelope.
  repeat split.
  all: try (intros [] [] H; cbn in H; congruence).
  all: intros [rs c n p].
  - exists (APIGetFamiliasResponse.mk rs c n p). reflexivity.
  - exists (APIGetProdutosResponse.mk rs c n p). reflexivity.
  - exists (APIGetPedidosResponse.mk rs c n p). reflexivity.
  - exists (APIGetRotasResponse.mk rs c n p). reflexivity.
Qed.

Lemma APIError_fields :
  carries_exactly
    (fun e : APIError =>
       (APIError.success e, APIError.detail e, APIError.code e)
       : literal_false * optional string * optional string).
Proof. exactly_the_fields. Qed.

(** C5: the [success] field of every [APIError] is [false] and never
    [true]; besides it an [APIError] has an optional string [detail] and
    an optional string [code] and nothing else; so its [success] differs
    from that of every successful response. *)
Theorem api_error_is_never_a_success :
  (forall e : APIError, proj1_sig (APIError.success e) = false) /\
  (forall e : APIError, proj1_sig (APIError.success e) <> true) /\
  carries_exactly
    (fun e : APIError =>
       (APIError.success e, APIError.detail e, APIError.code e)
       : literal_false * optional string * optional string) /\
  (forall (TData : Type) (ok : API TData) (e : APIError),
     API.success ok = true -> proj1_sig (APIError.success e) <> API.success ok).
Proof.
  assert (F : forall e : APIError, proj1_sig (APIError.success e) = false).
  { intros e. exact (proj2_sig (APIError.success e)). }
  repeat split.
  - exact F.
  - intros e H. rewrite F in H. discriminate H.
  - apply APIError_fields.
  - apply APIError_fields.
  - intros TData ok e Hok H. rewrite F, Hok in H. discriminate H.
Qed.

(** ** Authentication *)

(** C6: the sign-in and the sign-up responses have one shape,
    [{ user: { id, name, email }, access_token }]: each value of one reads
    as a value of the other with the same fields, and back. *)
Theorem sign_in_and_sign_up_coincide :
  (forall r : APISignInResponse, sign_up_as_sign_in (sign_in_as_sign_up r) = r) /\
  (forall r : APISignUpResponse, sign_in_as_sign_up (sign_up_as_sign_in r) = r) /\
  (forall r : APISignInResponse,
     APISignUpResponse.user (sign_in_as_sign_up r) = APISignInResponse.user r /\
     APISignUpResponse.access_token (sign_in_as_sign_up r) =
       APISignInResponse.access_token r) /\
  carries_exactly
    (fun r : APISignInResponse =>
       (APISignInResponse.user r, APISignInResponse.access_token r) : User * string) /\
  carries_exactly
    (fun r : APISignUpResponse =>
       (APISignUpResponse.user r, APISignUpResponse.access_token r) : User * string) /\
  carries_exactly
    (fun u : User => (User.id u, User.name u, User.email u) : number * string * string).
Proof.
  split; [intros []; reflexivity |].
  split; [intros []; reflexivity |].
  split; [intros []; split; reflexivity |].
  split; [exactly_the_fields |].
  split; exactly_the_fields.
Qed.

(** ** Creation payloads *)

(** C7: an order-creation payload is exactly [usuario_id] (optional,
    nullable number), [nf] (number), [observacao] (optional, nullable
    string), [dtpedido] (string), [latitude] and [longitude] (numbers) and
    [itens], a list of [{ produto_id, quantidade }] (two numbers); a
    route-creation payload is exactly [data_rota] (string),
    [capacidade_max] (number), [status] (optional) and [pedidos_ids]
    (optional list of numbers). *)
Theorem create_payloads_fields :
  carries_exactly
    (fun p : PedidoCreatePayload =>
       (PedidoCreatePayload.usuario_id p, PedidoCreatePayload.nf p,
        PedidoCreatePayload.observacao p, PedidoCreatePayload.dtpedido p,
        PedidoCreatePayload.latitude p, PedidoCreatePayload.longitude p,
        PedidoCreatePayload.itens p)
       : optional (nullable number) * number * optional (nullable string) *
         string * number * number * list PedidoCreatePayload.itens.t) /\
  carries_exactly
    (fun i : PedidoCreatePayload.itens.t =>
       (PedidoCreatePayload.itens.produto_id i, PedidoCreatePayload.itens.quantidade i)
       : number * number) /\
  carries_exactly
    (fun p : RotaCreatePayload =>
       (RotaCreatePayload.data_rota p, RotaCreatePayload.capacidade_max p,
        RotaCreatePayload.status p, RotaCreatePayload.pedidos_ids p)
       : string * number * optional RotaStatus * optional (list number)).
Proof.
  split; [exactly_the_fields |].
  split; exactly_the_fields.
Qed.

(** ** Products *)

(** C8: a [ProdutoSimple] is exactly [id], [nome], [peso], [volume] and
    [familia_nome], a plain string.  A [Produto] carries more: the
    [familia] record, [ativo] and [created_at], so that products which
    agree on the five reduced fields can still differ in each of these. *)
Theorem produto_simple_has_five_fields :
  carries_exactly
    (fun p : ProdutoSimple =>
       (ProdutoSimple.id p, ProdutoSimple.nome p, ProdutoSimple.peso p,
        ProdutoSimple.volume p, ProdutoSimple.familia_nome p)
       : number * string * number * nullable number * string) /\
  carries_exactly
    (fun p : Produto =>
       (Produto.id p, Produto.nome p, Produto.peso p, Produto.volume p,
        Produto.familia p, Produto.ativo p, Produto.created_at p)
       : number * string * number * nullable number * Produto.familia.t *
         bool * string) /\
  carries_exactly
    (fun f : Produto.familia.t =>
       (Produto.familia.id f, Produto.familia.nome f, Produto.familia.descricao f)
       : number * string * nullable string) /\
  (exists p q : Produto,
     (Produto.id p, Produto.nome p, Produto.peso p, Produto.volume p,
      Produto.familia.nome (Produto.familia p)) =
     (Produto.id q, Produto.nome q, Produto.peso q, Produto.volume q,
      Produto.familia.nome (Produto.familia q)) /\
     Produto.familia p <> Produto.familia q /\
     Produto.ativo p <> Produto.ativo q /\
     Produto.created_at p <> Produto.created_at q).
Proof.
  split; [exactly_the_fields |].
  split; [exactly_the_fields |].
  split; [exactly_the_fields |].
  exists (produto_caixa true "2024-01-01T00:00:00Z" 1),
         (produto_caixa false "2024-02-01T00:00:00Z" 2).
  split; [reflexivity |].
  split; [| split; cbn; discriminate].
  cbn. intros H. apply (f_equal Produto.familia.id) in H. cbn in H.
  revert H. apply (number_differ 1); reflexivity.
Qed.

(** ** Coordinates *)

(** The model tells a required slot from a nullable and from an optional
    one: an order summary may have a null user name, and a creation
    payload may leave the user out. *)
Remark other_slots_may_be_empty :
  (exists p : PedidoSimple, state_of (PedidoSimple.usuario_nome p) = Null) /\
  (exists p : PedidoCreatePayload,
     state_of (PedidoCreatePayload.usuario_id p) = Missing).
Proof.
  split.
  - exists (PedidoSimple.mk 1 1001 "2024-03-01" 0 0 null null). reflexivity.
  - exists (PedidoCreatePayload.mk absent 1001 absent "2024-03-01" 0 0 []).
    reflexivity.
Qed.

(** C9: in [Pedido], [PedidoSimple] and [PedidoCreatePayload] alike,
    [latitude] and [longitude] are numbers that are always there: never
    missing and never null. *)
Theorem coordinates_are_required_numbers :
  (forall p : Pedido,
     exists lat lon : number,
       Pedido.latitude p = lat /\ Pedido.longitude p = lon /\
       state_of (Pedido.latitude p) = Filled /\
       state_of (Pedido.longitude p) = Filled) /\
  (forall p : PedidoSimple,
     exists lat lon : number,
       PedidoSimple.latitude p = lat /\ PedidoSimple.longitude p = lon /\
       state_of (PedidoSimple.latitude p) = Filled /\
       state_of (PedidoSimple.longitude p) = Filled) /\
  (forall p : PedidoCreatePayload,
     exists lat lon : number,
       PedidoCreatePayload.latitude p = lat /\
       PedidoCreatePayload.longitude p = lon /\
       state_of (PedidoCreatePayload.latitude p) = Filled /\
       state_of (PedidoCreatePayload.longitude p) = Filled).
Proof.
  repeat split; intros p; eexists; eexists; repeat split.
Qed.

(** ** Derived aggregates *)

Lemma with_derived_entrega_ok (r : Rota) :
  percentual_entrega_derived (with_derived_entrega r).
Proof. destruct r. repeat split. Qed.

Lemma percentual_entrega_derived_iff (r : Rota) :
  percentual_entrega_derived r <-> with_derived_entrega r = r.
Proof.
  split.
  - destruct r. unfold percentual_entrega_derived, with_derived_entrega. cbn.
    intros (Ht & He & Hp). rewrite Hp, He, Ht. reflexivity.
  - intros H. rewrite <- H. apply with_derived_entrega_ok.
Qed.

(** For a route without orders the formula divides zero by zero. *)
Example percentual_of_empty_route :
  Rota.percentual_entrega
    (with_derived_entrega (Rota.mk 1 "2024-03-02" 500 PLANEJADA "" "" [] [] 0 0 0 0))
  = PrimFloat.nan.
Proof. reflexivity. Qed.

(** C2, as stated, fails: the route [rota_ana 12.5 0] has one order, which
    is delivered, its two counts are right, and its [percentual_entrega]
    is 0 where the formula gives 100. *)
Lemma percentual_entrega_not_derived :
  Rota.total_pedidos (rota_ana 12.5 0) =
    number_of_nat (length (Rota.pedidos (rota_ana 12.5 0))) /\
  Rota.pedidos_entregues (rota_ana 12.5 0) =
    number_of_nat (delivered (Rota.pedidos (rota_ana 12.5 0))) /\
  Rota.pedidos_entregues (rota_ana 12.5 0) / Rota.total_pedidos (rota_ana 12.5 0) * 100
    = 100 /\
  Rota.percentual_entrega (rota_ana 12.5 0) = 0 /\
  ~ percentual_entrega_derived (rota_ana 12.5 0).
Proof.
  repeat split.
  intros (_ & _ & H). cbn in H.
  revert H. apply (number_differ 0); reflexivity.
Qed.

(** C2, amended: the type [Rota] leaves [total_pedidos],
    [pedidos_entregues] and [percentual_entrega] free, whatever [pedidos]
    is, so the relation [percentual_entrega = pedidos_entregues /
    total_pedidos * 100], with both counts taken from [pedidos], is not
    guaranteed.  For a route with at least one order it holds exactly
    when the three aggregates are the recomputed ones, and the route has
    such a variant, which differs from it in these three fields only;
    with two orders, the first delivered and the second not, the
    recomputed values are 2, 1 and 50.  For a route without orders the
    formula is [0 / 0 * 100], that is [NaN], to which no
    [percentual_entrega] compares equal: the relation is met there only
    by a [percentual_entrega] that is [NaN] itself. *)
Theorem percentual_entrega_is_not_enforced :
  (forall (ps : list RotaPedido) (total entregues percentual : number),
     exists r : Rota,
       Rota.pedidos r = ps /\ Rota.total_pedidos r = total /\
       Rota.pedidos_entregues r = entregues /\
       Rota.percentual_entrega r = percentual) /\
  (forall (r : Rota) (a : RotaPedido) (ps : list RotaPedido),
     Rota.pedidos r = a :: ps ->
     (percentual_entrega_derived r <-> with_derived_entrega r = r) /\
     percentual_entrega_derived (with_derived_entrega r) /\
     Rota.id (with_derived_entrega r) = Rota.id r /\
     Rota.data_rota (with_derived_entrega r) = Rota.data_rota r /\
     Rota.capacidade_max (with_derived_entrega r) = Rota.capacidade_max r /\
     Rota.status (with_derived_entrega r) = Rota.status r /\
     Rota.created_at (with_derived_entrega r) = Rota.created_at r /\
     Rota.updated_at (with_derived_entrega r) = Rota.updated_at r /\
     Rota.pedidos (with_derived_entrega r) = Rota.pedidos r /\
     Rota.trajetos (with_derived_entrega r) = Rota.trajetos r /\
     Rota.peso_total_pedidos (with_derived_entrega r) = Rota.peso_total_pedidos r) /\
  (forall (r : Rota) (a b : RotaPedido),
     Rota.pedidos r = [a; b] ->
     RotaPedido.entregue a = true ->
     RotaPedido.entregue b = false ->
     Rota.total_pedidos (with_derived_entrega r) = 2 /\
     Rota.pedidos_entregues (with_derived_entrega r) = 1 /\
     Rota.percentual_entrega (with_derived_entrega r) = 50) /\
  (forall r : Rota,
     Rota.pedidos r = [] ->
     number_of_nat (delivered (Rota.pedidos r)) /
       number_of_nat (length (Rota.pedidos r)) * 100 = PrimFloat.nan /\
     PrimFloat.eqb (Rota.percentual_entrega r)
       (number_of_nat (delivered (Rota.pedidos r)) /
          number_of_nat (length (Rota.pedidos r)) * 100) = false /\
     (percentual_entrega_derived r ->
      Rota.percentual_entrega r = PrimFloat.nan /\
      PrimFloat.eqb (Rota.percentual_entrega r)
        (Rota.pedidos_entregues r / Rota.total_pedidos r * 100) = false)).
Proof.
  split; [| split; [| split]].
  - intros ps total entregues percentual.
    exists (Rota.mk 0 "" 0 PLANEJADA "" "" ps [] 0 total entregues percentual).
    repeat split.
  - intros r a ps _.
    split; [apply percentual_entrega_derived_iff |].
    split; [apply with_derived_entrega_ok |].
    destruct r. repeat split.
  - intros r a b Hps Ha Hb. destruct r. cbn in Hps. subst.
    unfold with_derived_entrega, delivered. cbn. rewrite Ha, Hb. cbn.
    repeat split.
  - intros r Hps. rewrite Hps.
    change (number_of_nat (delivered []) / number_of_nat (length (@nil RotaPedido)) * 100)
      with PrimFloat.nan.
    split; [reflexivity |]. split; [apply eqb_nan |].
    intros (Ht & He & Hp). rewrite Hps in Ht, He.
    assert (E : Rota.percentual_entrega r = PrimFloat.nan).
    { rewrite Hp, He, Ht. reflexivity. }
    split; [exact E |].
    rewrite <- Hp, E. reflexivity.
Qed.

(** The recomputed aggregates of [rota_duas_entregas]. *)
Lemma percentual_entrega_of_two_orders :
  (Rota.pedidos rota_duas_entregas = [entrega_ana; entrega_pendente] /\
   RotaPedido.entregue entrega_ana = true /\
   RotaPedido.entregue entrega_pendente = false) /\
  (Rota.total_pedidos (with_derived_entrega rota_duas_entregas) = 2 /\
   Rota.pedidos_entregues (with_derived_entrega rota_duas_entregas) = 1 /\
   Rota.percentual_entrega (with_derived_entrega rota_duas_entregas) = 50).
Proof.
  split; [repeat split |].
  exact (proj1 (proj2 (proj2 percentual_entrega_is_not_enforced))
           rota_duas_entregas entrega_ana entrega_pendente
           eq_refl eq_refl eq_refl).
Defined.

Lemma line_peso_derived_iff (i : ProdutoPedido) :
  line_peso_derived i <-> with_derived_line_peso i = i.
Proof.
  split.
  - destruct i. unfold line_peso_derived, with_derived_line_peso. cbn.
    intros H. rewrite H. reflexivity.
  - intros H. rewrite <- H. reflexivity.
Qed.

Lemma pedido_peso_derived_iff (p : Pedido) :
  pedido_peso_derived p <-> with_derived_pedido_peso p = p.
Proof.
  split.
  - destruct p. unfold pedido_peso_derived, with_derived_pedido_peso. cbn.
    intros H. rewrite H. reflexivity.
  - intros H. rewrite <- H. reflexivity.
Qed.

Lemma rota_peso_derived_iff (weight : RotaPedido -> number) (r : Rota) :
  rota_peso_derived weight r <-> with_derived_rota_peso weight r = r.
Proof.
  split.
  - destruct r. unfold rota_peso_derived, with_derived_rota_peso. cbn.
    intros H. rewrite H. reflexivity.
  - intros H. rewrite <- H. reflexivity.
Qed.

(** C3, as stated, fails in each of its three parts: [linha_sete] is three
    boxes of weight 2 declared to weigh 7; [pedido_dez] has one line of
    weight 6 and declares 10; and the routes [rota_ana 10 100] and
    [rota_ana 20 100] have the same single order and declare 10 and 20,
    which no weight of that order explains. *)
Lemma peso_total_not_derived :
  ~ line_peso_derived linha_sete /\
  ~ pedido_peso_derived pedido_dez /\
  (forall weight : RotaPedido -> number,
     ~ (rota_peso_derived weight (rota_ana 10 100) /\
        rota_peso_derived weight (rota_ana 20 100))) /\
  ~ peso_total_derived_everywhere.
Proof.
  assert (L : ~ line_peso_derived linha_sete).
  { unfold line_peso_derived. cbn. apply (number_differ 7); reflexivity. }
  assert (P : ~ pedido_peso_derived pedido_dez).
  { unfold pedido_peso_derived. cbn. apply (number_differ 10); reflexivity. }
  repeat split; [exact L | exact P | |].
  - intros weight [H10 H20].
    pose proof (eq_trans H10 (eq_sym H20)) as E. cbn in E.
    revert E. apply (number_differ 10); reflexivity.
  - intros (H & _ & _). exact (L (H linha_sete)).
Qed.

(** C3, amended: the types leave every [peso_total] free of the weights
    it would sum up: any line, any list of lines and any list of assigned
    orders goes with any declared weight.  The equalities hold exactly of
    the values whose weight is the recomputed one; every line and every
    order has such a variant, and a route has one for each weight given to
    assigned orders, which carry no weight themselves. *)
Theorem peso_total_is_not_enforced :
  (forall (produto : ProdutoSimple) (quantidade peso : number),
     exists i : ProdutoPedido,
       ProdutoPedido.produto i = produto /\
       ProdutoPedido.quantidade i = quantidade /\
       ProdutoPedido.peso_total i = peso) /\
  (forall (itens : list ProdutoPedido) (peso : number),
     exists p : Pedido, Pedido.itens p = itens /\ Pedido.peso_total p = peso) /\
  (forall (ps : list RotaPedido) (peso : number),
     exists r : Rota, Rota.pedidos r = ps /\ Rota.peso_total_pedidos r = peso) /\
  (forall i : ProdutoPedido,
     line_peso_derived i <-> with_derived_line_peso i = i) /\
  (forall p : Pedido,
     pedido_peso_derived p <-> with_derived_pedido_peso p = p) /\
  (forall (weight : RotaPedido -> number) (r : Rota),
     rota_peso_derived weight r <-> with_derived_rota_peso weight r = r) /\
  (forall i : ProdutoPedido,
     line_peso_derived (with_derived_line_peso i) /\
     ProdutoPedido.produto (with_derived_line_peso i) = ProdutoPedido.produto i /\
     ProdutoPedido.quantidade (with_derived_line_peso i) = ProdutoPedido.quantidade i) /\
  (forall p : Pedido,
     pedido_peso_derived (with_derived_pedido_peso p) /\
     Pedido.itens (with_derived_pedido_peso p) = Pedido.itens p) /\
  (forall (weight : RotaPedido -> number) (r : Rota),
     rota_peso_derived weight (with_derived_rota_peso weight r) /\
     Rota.pedidos (with_derived_rota_peso weight r) = Rota.pedidos r).
Proof.
  split; [| split; [| split]].
  - intros produto quantidade peso.
    exists (ProdutoPedido.mk 0 produto quantidade peso). repeat split.
  - intros itens peso.
    exists (Pedido.mk 0 null 0 null "" 0 0 "" itens peso 0 0). repeat split.
  - intros ps peso.
    exists (Rota.mk 0 "" 0 PLANEJADA "" "" ps [] peso 0 0 0). repeat split.
  - split; [exact line_peso_derived_iff |].
    split; [exact pedido_peso_derived_iff |].
    split; [exact rota_peso_derived_iff |].
    split; [| split].
    + intros i. destruct i. repeat split.
    + intros p. destruct p. repeat split.
    + intros weight r. destruct r. repeat split.
Qed.
